(** * A shallow embedding of gdrive_upload.py and gdrive_get_credentials.py

    Both scripts are straight-line glue around PyDrive.  Every call into
    PyDrive (or the file system) is an [event] appended to a trace; what the
    library returns is read off an environment [env].  A computation is a
    state-and-exception monad over the trace: it ends normally ([Ok]), by an
    uncaught Python exception ([Raise]) or by [exit(n)] ([Exit]). *)

From Stdlib Require Import String List Bool ZArith Lia.
Import ListNotations.
Open Scope string_scope.

(** ** Python helpers *)

Module Py.

(** Truthiness of a value that is either [None] or a [str]. *)
Definition truthy (o : option string) : bool :=
  match o with
  | Some s => negb (String.eqb s "")
  | None => false
  end.

(** The [str] inside such a value (only used where it is truthy). *)
Definition str_of (o : option string) : string :=
  match o with Some s => s | None => "" end.

Definition ends_with_slash (s : string) : bool :=
  String.eqb (String.substring (String.length s - 1) 1 s) "/".

(** [posixpath.join(a, b)] for two components. *)
Definition os_path_join (a b : string) : string :=
  if String.prefix "/" b then b
  else if String.eqb a "" || ends_with_slash a then a ++ b
  else a ++ "/" ++ b.

End Py.

Import Py.

(** ** Data of the PyDrive world *)

(** oauth2client credentials; [access_token_expired] is the property PyDrive
    reads. *)
Record cred := mkCred {
  cred_service_account : bool;
  access_token_expired : bool
}.

(** A [GoogleAuth] object: its credentials and whether [Authorize] built its
    API service. *)
Record gauth := mkGauth {
  g_credentials : option cred;
  g_service : bool
}.

Definition GoogleAuth : gauth := mkGauth None false.

(** [GoogleAuth.access_token_expired]: [True] when there are no credentials. *)
Definition gauth_access_token_expired (g : gauth) : bool :=
  match g_credentials g with
  | None => true
  | Some c => access_token_expired c
  end.

(** One entry of a [ListFile(...).GetList()] result. *)
Record entry := mkEntry { title : string; id : string }.

(** The body of a [googleapiclient.errors.HttpError], held in [err.content]
    as [bytes]: either the provider's JSON error object, whose
    [['error']['message']] is the given string, or some other body (an HTML
    page from a gateway, say). *)
Inductive err_content :=
  | ErrBody (message : string)
  | ErrBodyMalformed.

Record http_error := mkHttpError { err_status : Z; content : err_content }.

Inductive exn :=
  | ExnMsg (msg : string)            (* raise Exception(msg) *)
  | ExnHttp (err : http_error)       (* googleapiclient.errors.HttpError *)
  | ExnValueError                    (* ast.literal_eval on a non-literal *)
  | ExnInvalidCredentials            (* LoadCredentialsFile failure *)
  | ExnRefreshError                  (* GoogleAuth.Refresh failure *)
  | ExnAuthorize                     (* GoogleAuth.Authorize failure *)
  | ExnServiceAccountKey             (* from_json_keyfile_name failure *)
  | ExnIO (path : string)            (* opening a local file *)
  | ExnUpload                        (* GoogleDriveFile.Upload failure *)
  | ExnClientConfig                  (* pydrive InvalidConfigError *)
  | ExnAuthFlow.                     (* LocalWebserverAuth failure *)

Record file_link := mkFileLink { fl_kind : string; fl_id : string }.

(** The [upload_args] dict given to [CreateFile]: its optional keys. *)
Record upload_args := mkUploadArgs {
  ua_title : option string;
  ua_parents : option (list file_link)
}.

(** Calls into the library and the console. *)
Inductive event :=
  | EvPrint (msg : string)
  | EvLoadCredentialsFile (path : string)
  | EvRefresh
  | EvAuthorize
  | EvServiceAccountKey (path : string)
  | EvListFile (q : string)
  | EvCreateFile (meta : upload_args)
  | EvSetContentFile (path : string)
  | EvUpload (param : list (string * bool))
  | EvGetFlow
  | EvFlowParamsUpdate (key value : string)
  | EvLoadClientConfigFile (path : string)
  | EvLocalWebserverAuth
  | EvSaveCredentialsFile (path : string).

Inductive load_result :=
  | LoadFails                          (* LoadCredentialsFile raises *)
  | Loaded (c : option cred).          (* sets gauth.credentials *)

Inductive list_result :=
  | ListOk (files : list entry)
  | ListHttpError (err : http_error).

(** What the outside world answers. *)
Record env := mkEnv {
  env_load_credentials : string -> load_result;
  env_refresh_ok : bool;
  env_authorize_ok : bool;
  env_service_account_key_ok : string -> bool;
  env_list : string -> list_result;
  env_file_exists : string -> bool;
  env_upload_ok : bool;
  env_cwd : string;
  env_client_config_ok : string -> bool;
  env_default_client_config_ok : bool;
  env_webserver_ok : bool
}.

(** ** The monad *)

Inductive outcome (A : Type) :=
  | Ok (a : A)
  | Raise (e : exn)
  | Exit (code : Z).
Arguments Ok {A} a.
Arguments Raise {A} e.
Arguments Exit {A} code.

Definition M (A : Type) : Type := list event -> outcome A * list event.

Definition ret {A} (a : A) : M A := fun t => (Ok a, t).

Definition bind {A B} (m : M A) (k : A -> M B) : M B :=
  fun t =>
    match m t with
    | (Ok a, t') => k a t'
    | (Raise e, t') => (Raise e, t')
    | (Exit c, t') => (Exit c, t')
    end.

Definition emit (e : event) : M unit := fun t => (Ok tt, (t ++ [e])%list).
Definition raise {A} (e : exn) : M A := fun t => (Raise e, t).
Definition py_exit {A} (code : Z) : M A := fun t => (Exit code, t).
Definition print (s : string) : M unit := emit (EvPrint s).

(** [try: m except HttpError as err: h(err)] *)
Definition try_http {A} (m : M A) (h : http_error -> M A) : M A :=
  fun t =>
    match m t with
    | (Raise (ExnHttp err), t') => h err t'
    | r => r
    end.

Notation "x <- m ;; k" := (bind m (fun x => k))
  (at level 61, m at next level, right associativity).
Notation "m ;; k" := (bind m (fun _ => k))
  (at level 61, right associativity).

(** ** The two scripts *)

(** The [args] namespace of gdrive_upload.py after argparse: [--file] is
    required, every other option is [None] when not given. *)
Record upload_cli := mkUploadCli {
  credentials : option string;
  service_account_key : option string;
  file : string;
  name : option string;
  directory_name : option string;
  directory_id : option string
}.

Definition no_auth_msg : string :=
  "Specify at least one way to authorize(--credentials or --service-account-key".

Definition unreachable_msg : string :=
  "Actually we cannot get here, cause we are filtering this case on parse_args()".

(** The listing query of [get_folder_id_by_name]. *)
Definition parents_query (parent_folder_id : string) : string :=
  "'" ++ parent_folder_id ++ "' in parents and trashed=false".

Section Program.

Variable E : env.

(** gdrive_upload.py, [parse_args] (the part after [parser.parse_args()]) *)
Definition parse_args (args : upload_cli) : M upload_cli :=
  if negb (truthy (credentials args)) && negb (truthy (service_account_key args))
  then raise (ExnMsg no_auth_msg)
  else ret args.

(** [gauth.LoadCredentialsFile(path)] *)
Definition LoadCredentialsFile (g : gauth) (path : string) : M gauth :=
  emit (EvLoadCredentialsFile path) ;;
  match env_load_credentials E path with
  | LoadFails => raise ExnInvalidCredentials
  | Loaded c => ret {| g_credentials := c; g_service := g_service g |}
  end.

(** [gauth.Refresh()]: on success the access token is no longer expired. *)
Definition Refresh (g : gauth) : M gauth :=
  emit EvRefresh ;;
  if env_refresh_ok E then
    ret {| g_credentials :=
             match g_credentials g with
             | Some c => Some {| cred_service_account := cred_service_account c;
                                 access_token_expired := false |}
             | None => None
             end;
           g_service := g_service g |}
  else raise ExnRefreshError.

(** [gauth.Authorize()]: builds the API service. *)
Definition Authorize (g : gauth) : M gauth :=
  emit EvAuthorize ;;
  if env_authorize_ok E then
    ret {| g_credentials := g_credentials g; g_service := true |}
  else raise ExnAuthorize.

(** gdrive_upload.py, [auth_with_credentials] *)
Definition auth_with_credentials (credentials_file : string) : M gauth :=
  g <- LoadCredentialsFile GoogleAuth credentials_file ;;
  g <- (match g_credentials g with
        | None => raise (ExnMsg ("Error while loading " ++ credentials_file))
        | Some _ =>
            if gauth_access_token_expired g then
              print "Token expired. Refreshing token" ;;
              Refresh g
            else
              print "Authorizing using current token" ;;
              Authorize g
        end) ;;
  print "Successfully authorized" ;;
  ret g.

(** gdrive_upload.py, [auth_with_service_account_key] *)
Definition auth_with_service_account_key (service_account_key : string) : M gauth :=
  emit (EvServiceAccountKey service_account_key) ;;
  if env_service_account_key_ok E service_account_key then
    Authorize {| g_credentials := Some {| cred_service_account := true;
                                          access_token_expired := false |};
                 g_service := false |}
  else raise ExnServiceAccountKey.

(** [drive.ListFile({'q': q}).GetList()] *)
Definition ListFile_GetList (q : string) : M (list entry) :=
  emit (EvListFile q) ;;
  match env_list E q with
  | ListOk l => ret l
  | ListHttpError err => raise (ExnHttp err)
  end.

(** [ast.literal_eval(err.content)['error']['message']]: [err.content] is
    [bytes], and [ast.literal_eval] only parses a [str] (or an AST node); on
    [bytes] it raises [ValueError('malformed node or string')], whatever the
    body holds, before [['error']] is looked up. *)
Definition error_message (err : http_error) : M string :=
  raise ExnValueError.

(** The [for file1 in file_list] loop of [get_folder_id_by_name]. *)
Fixpoint find_folder (folder_name : string) (file_list : list entry)
  : M (option string) :=
  match file_list with
  | [] => ret None
  | file1 :: rest =>
      if String.eqb (title file1) folder_name then
        print ("title: " ++ title file1 ++ ", id: " ++ id file1) ;;
        ret (Some (id file1))
      else find_folder folder_name rest
  end.

(** gdrive_upload.py, [get_folder_id_by_name] *)
Definition get_folder_id_by_name (drive : gauth) (parent_folder_id folder_name : string)
  : M (option string) :=
  file_list <-
    try_http (ListFile_GetList (parents_query parent_folder_id))
      (fun err =>
         message <- error_message err ;;
         if String.eqb message "File not found: " then
           print (message ++ folder_name) ;;
           py_exit 1
         else raise (ExnHttp err)) ;;
  find_folder folder_name file_list.

(** The dict built by [upload]. *)
Definition make_upload_args (parent_folder_id uploaded_file_name : option string)
  : upload_args :=
  {| ua_title := if truthy uploaded_file_name then uploaded_file_name else None;
     ua_parents :=
       if truthy parent_folder_id
       then Some [{| fl_kind := "drive#fileLink"; fl_id := str_of parent_folder_id |}]
       else None |}.

(** gdrive_upload.py, [upload] *)
Definition upload (drive : gauth) (file_to_upload : string)
    (parent_folder_id uploaded_file_name : option string) : M unit :=
  emit (EvCreateFile (make_upload_args parent_folder_id uploaded_file_name)) ;;
  emit (EvSetContentFile file_to_upload) ;;
  (if env_file_exists E file_to_upload then ret tt else raise (ExnIO file_to_upload)) ;;
  print "Uploading file" ;;
  emit (EvUpload [("supportsTeamDrives", true)]) ;;
  if env_upload_ok E then ret tt else raise ExnUpload.

(** gdrive_upload.py, [main] *)
Definition main (cli : upload_cli) : M unit :=
  args <- parse_args cli ;;
  gauth <- (if truthy (credentials args) then
              auth_with_credentials (str_of (credentials args))
            else if truthy (service_account_key args) then
              auth_with_service_account_key (str_of (service_account_key args))
            else raise (ExnMsg unreachable_msg)) ;;
  let drive := gauth in
  parent_folder_id <-
    (if truthy (directory_id args) then ret (directory_id args)
     else if truthy (directory_name args) then
       pid <- get_folder_id_by_name drive "root" (str_of (directory_name args)) ;;
       if negb (truthy pid) then
         raise (ExnMsg ("Cannot find parent directory " ++ str_of (directory_name args)))
       else ret pid
     else ret (Some "")) ;;
  upload drive (file args) parent_folder_id (name args).

(** [gauth.GetFlow()] on a fresh [GoogleAuth]: its client config is still
    empty, so PyDrive first runs [LoadClientConfig()], which reads the
    settings' default [client_secrets.json] from the working directory and
    raises [InvalidConfigError] when that file is missing or invalid. *)
Definition GetFlow : M unit :=
  emit EvGetFlow ;;
  if env_default_client_config_ok E then ret tt else raise ExnClientConfig.

(** gdrive_get_credentials.py, [get_credentials] *)
Definition get_credentials (client_secret : string) (output_file : option string)
  : M unit :=
  GetFlow ;;
  emit (EvFlowParamsUpdate "access_type" "offline") ;;
  emit (EvFlowParamsUpdate "approval_prompt" "force") ;;
  emit (EvLoadClientConfigFile client_secret) ;;
  (if env_client_config_ok E client_secret then ret tt else raise ExnClientConfig) ;;
  emit EvLocalWebserverAuth ;;
  (if env_webserver_ok E then ret tt else raise ExnAuthFlow) ;;
  let output_file :=
    if truthy output_file then str_of output_file
    else os_path_join (env_cwd E) "credentials.json" in
  emit (EvSaveCredentialsFile output_file) ;;
  print ("Credentials file saved to " ++ output_file).

End Program.

(** ** Sample inputs *)

(** A Drive whose root holds [a.txt] and two folders named [Reports]; any
    other parent is answered with the provider's "File not found" error. *)
Definition sample_env : env := {|
  env_load_credentials := fun p =>
    if String.eqb p "credentials.json" then Loaded (Some (mkCred false false))
    else if String.eqb p "expired.json" then Loaded (Some (mkCred false true))
    else if String.eqb p "empty.json" then Loaded None
    else LoadFails;
  env_refresh_ok := true;
  env_authorize_ok := true;
  env_service_account_key_ok := fun p => String.eqb p "key.json";
  env_list := fun q =>
    if String.eqb q (parents_query "root")
    then ListOk [mkEntry "a.txt" "X1"; mkEntry "Reports" "F123"; mkEntry "Reports" "F999"]
    else ListHttpError (mkHttpError 404 (ErrBody "File not found: "));
  env_file_exists := fun _ => true;
  env_upload_ok := true;
  env_cwd := "/home/user";
  env_client_config_ok := fun _ => true;
  env_default_client_config_ok := true;
  env_webserver_ok := true
|}.

(** The same world, run from a directory without [client_secrets.json]. *)
Definition no_client_secrets_env : env := {|
  env_load_credentials := env_load_credentials sample_env;
  env_refresh_ok := true;
  env_authorize_ok := true;
  env_service_account_key_ok := env_service_account_key_ok sample_env;
  env_list := env_list sample_env;
  env_file_exists := fun _ => true;
  env_upload_ok := true;
  env_cwd := "/home/user";
  env_client_config_ok := fun _ => true;
  env_default_client_config_ok := false;
  env_webserver_ok := true
|}.

(** A Drive that reports every parent folder as missing. *)
Definition missing_parent_env : env := {|
  env_load_credentials := env_load_credentials sample_env;
  env_refresh_ok := true;
  env_authorize_ok := true;
  env_service_account_key_ok := env_service_account_key_ok sample_env;
  env_list := fun _ => ListHttpError (mkHttpError 404 (ErrBody "File not found: "));
  env_file_exists := fun _ => true;
  env_upload_ok := true;
  env_cwd := "/home/user";
  env_client_config_ok := fun _ => true;
  env_default_client_config_ok := true;
  env_webserver_ok := true
|}.

Definition cli_of (cred key : option string) (f : string)
    (n dn di : option string) : upload_cli :=
  {| credentials := cred; service_account_key := key; file := f; name := n;
     directory_name := dn; directory_id := di |}.

(** ** Reasoning about traces *)

(** A computation is [framed] when it only appends to the trace and what it
    does (outcome and appended events) does not depend on the trace before. *)
Definition framed {A} (m : M A) : Prop :=
  forall t, m t = (fst (m []), (t ++ snd (m []))%list).

(** A computation [preserves] a property of traces. *)
Definition preserves {A} (P : list event -> Prop) (m : M A) : Prop :=
  forall t, P t -> P (snd (m t)).

(** Events emitted by a computation all satisfy [q]. *)
Definition all_events (q : event -> bool) (t : list event) : Prop :=
  forallb q t = true.

Lemma framed_ret {A} (a : A) : framed (ret a).
Proof. intro t. unfold ret. simpl. now rewrite app_nil_r. Qed.

Lemma framed_raise {A} (e : exn) : framed (A := A) (raise e).
Proof. intro t. unfold raise. simpl. now rewrite app_nil_r. Qed.

Lemma framed_exit {A} (c : Z) : framed (A := A) (py_exit c).
Proof. intro t. unfold py_exit. simpl. now rewrite app_nil_r. Qed.

Lemma framed_emit (e : event) : framed (emit e).
Proof. intro t. reflexivity. Qed.

Lemma framed_bind {A B} (m : M A) (k : A -> M B) :
  framed m -> (forall a, framed (k a)) -> framed (bind m k).
Proof.
  intros Hm Hk t. unfold bind. rewrite (Hm t).
  destruct (m []) as [[a|e|c] d]; simpl; try reflexivity.
  rewrite (Hk a (t ++ d)%list), (Hk a d). simpl. now rewrite app_assoc.
Qed.

Lemma framed_try {A} (m : M A) (h : http_error -> M A) :
  framed m -> (forall e, framed (h e)) -> framed (try_http m h).
Proof.
  intros Hm Hh t. unfold try_http. rewrite (Hm t).
  destruct (m []) as [[a|[]|c] d]; simpl; try reflexivity.
  rewrite (Hh err (t ++ d)%list), (Hh err d). simpl. now rewrite app_assoc.
Qed.

Lemma preserves_ret {A} P (a : A) : preserves P (ret a).
Proof. intros t H. exact H. Qed.

Lemma preserves_raise {A} P (e : exn) : preserves P (A := A) (raise e).
Proof. intros t H. exact H. Qed.

Lemma preserves_exit {A} P (c : Z) : preserves P (A := A) (py_exit c).
Proof. intros t H. exact H. Qed.

Lemma preserves_emit (q : event -> bool) (e : event) :
  q e = true -> preserves (all_events q) (emit e).
Proof.
  intros He t H. unfold all_events in *. simpl.
  rewrite forallb_app, H. simpl. now rewrite He.
Qed.

Lemma preserves_bind {A B} P (m : M A) (k : A -> M B) :
  preserves P m -> (forall a, preserves P (k a)) -> preserves P (bind m k).
Proof.
  intros Hm Hk t H. unfold bind. specialize (Hm t H).
  destruct (m t) as [[a|e|c] d]; simpl in *; auto. apply Hk, Hm.
Qed.

Lemma preserves_try {A} P (m : M A) (h : http_error -> M A) :
  preserves P m -> (forall e, preserves P (h e)) -> preserves P (try_http m h).
Proof.
  intros Hm Hh t H. unfold try_http. specialize (Hm t H).
  destruct (m t) as [[a|[]|c] d]; simpl in *; auto. apply Hh, Hm.
Qed.

Ltac framed_step :=
  match goal with
  | |- framed (bind _ _) => apply framed_bind; [| intros ?]
  | |- framed (try_http _ _) => apply framed_try; [| intros ?]
  | |- framed (if ?b then _ else _) => destruct b
  | |- framed (match ?x with _ => _ end) => destruct x
  | |- framed (ret _) => apply framed_ret
  | |- framed (raise _) => apply framed_raise
  | |- framed (py_exit _) => apply framed_exit
  | |- framed (emit _) => apply framed_emit
  | |- framed (print _) => apply framed_emit
  end.

Ltac preserves_step :=
  match goal with
  | |- preserves _ (bind _ _) => apply preserves_bind; [| intros ?]
  | |- preserves _ (try_http _ _) => apply preserves_try; [| intros ?]
  | |- preserves _ (if ?b then _ else _) => destruct b
  | |- preserves _ (match ?x with _ => _ end) => destruct x
  | |- preserves _ (ret _) => apply preserves_ret
  | |- preserves _ (raise _) => apply preserves_raise
  | |- preserves _ (py_exit _) => apply preserves_exit
  | |- preserves (all_events _) (emit _) => apply preserves_emit; reflexivity
  | |- preserves (all_events _) (print _) => apply preserves_emit; reflexivity
  end.

Lemma find_folder_framed (n : string) (l : list entry) : framed (find_folder n l).
Proof. induction l as [|f l IH]; simpl; repeat framed_step; auto. Qed.

Lemma get_folder_id_by_name_framed E g p n : framed (get_folder_id_by_name E g p n).
Proof.
  unfold get_folder_id_by_name, ListFile_GetList, error_message.
  repeat framed_step. apply find_folder_framed.
Qed.

(** Kinds of events. *)
Definition is_file_op (e : event) : bool :=
  match e with
  | EvCreateFile _ | EvSetContentFile _ | EvUpload _ => true
  | _ => false
  end.

Definition is_list_call (e : event) : bool :=
  match e with EvListFile _ => true | _ => false end.

Definition is_auth_load (e : event) : bool :=
  match e with
  | EvLoadCredentialsFile _ | EvServiceAccountKey _ => true
  | _ => false
  end.

Definition no_file_op (e : event) : bool := negb (is_file_op e).

Definition no_file_op_or_list (e : event) : bool :=
  negb (is_file_op e || is_list_call e).

Definition count (q : event -> bool) (t : list event) : nat :=
  length (filter q t).

Lemma all_events_nil q : all_events q [].
Proof. reflexivity. Qed.

Lemma all_events_app q t1 t2 :
  all_events q t1 -> all_events q t2 -> all_events q (t1 ++ t2)%list.
Proof. unfold all_events. rewrite forallb_app. now intros -> ->. Qed.

Lemma all_events_weaken (q1 q2 : event -> bool) t :
  (forall e, q1 e = true -> q2 e = true) -> all_events q1 t -> all_events q2 t.
Proof.
  unfold all_events. induction t as [|e t IH]; simpl; auto.
  intros H. rewrite !andb_true_iff. intros [H1 H2]. auto.
Qed.

Lemma find_folder_events q n l :
  (forall s, q (EvPrint s) = true) -> preserves (all_events q) (find_folder n l).
Proof.
  intros Hq. induction l as [|f l IH]; simpl; repeat preserves_step; auto.
  apply preserves_emit, Hq.
Qed.

Lemma get_folder_id_by_name_no_file_op E g p n :
  preserves (all_events no_file_op) (get_folder_id_by_name E g p n).
Proof.
  unfold get_folder_id_by_name, ListFile_GetList, error_message.
  repeat preserves_step. apply find_folder_events. reflexivity.
Qed.

Lemma auth_with_credentials_events E p :
  preserves (all_events no_file_op_or_list) (auth_with_credentials E p).
Proof.
  unfold auth_with_credentials, LoadCredentialsFile, Refresh, Authorize.
  repeat preserves_step.
Qed.

Lemma auth_with_service_account_key_events E p :
  preserves (all_events no_file_op_or_list) (auth_with_service_account_key E p).
Proof.
  unfold auth_with_service_account_key, Authorize. repeat preserves_step.
Qed.

Lemma auth_with_credentials_no_exit E p t c :
  fst (auth_with_credentials E p t) <> Exit c.
Proof.
  unfold auth_with_credentials, LoadCredentialsFile, Refresh, Authorize,
    gauth_access_token_expired, print, bind, emit, ret, raise; simpl.
  destruct (env_load_credentials E p) as [|[[sa ex]|]]; simpl; try discriminate.
  destruct ex; [destruct (env_refresh_ok E) | destruct (env_authorize_ok E)];
    simpl; discriminate.
Qed.

Lemma auth_with_service_account_key_no_exit E p t c :
  fst (auth_with_service_account_key E p t) <> Exit c.
Proof.
  unfold auth_with_service_account_key, Authorize, bind, emit, ret, raise; simpl.
  destruct (env_service_account_key_ok E p); simpl; try discriminate.
  destruct (env_authorize_ok E); simpl; discriminate.
Qed.

(** A computation never ends by raising [bad]. *)
Definition never_raises {A} (bad : exn) (m : M A) : Prop :=
  forall t, fst (m t) <> Raise bad.

Lemma never_raises_ret {A} bad (a : A) : never_raises bad (ret a).
Proof. intros t. discriminate. Qed.

Lemma never_raises_exit {A} bad c : never_raises (A := A) bad (py_exit c).
Proof. intros t. discriminate. Qed.

Lemma never_raises_emit bad e : never_raises bad (emit e).
Proof. intros t. discriminate. Qed.

Lemma never_raises_raise {A} bad e : e <> bad -> never_raises (A := A) bad (raise e).
Proof. intros H t Hc. injection Hc. exact H. Qed.

Lemma never_raises_bind {A B} bad (m : M A) (k : A -> M B) :
  never_raises bad m -> (forall a, never_raises bad (k a)) ->
  never_raises bad (bind m k).
Proof.
  intros Hm Hk t. specialize (Hm t). unfold bind.
  destruct (m t) as [[a|e|c] d]; simpl in *;
    [apply Hk | intros Hc; injection Hc as ->; now apply Hm | intros Hc; discriminate Hc].
Qed.

Lemma never_raises_try {A} bad (m : M A) (h : http_error -> M A) :
  never_raises bad m -> (forall e, never_raises bad (h e)) ->
  never_raises bad (try_http m h).
Proof.
  intros Hm Hh t. specialize (Hm t). unfold try_http.
  destruct (m t) as [[a|[]|c] d]; simpl in *; auto. apply Hh.
Qed.

Lemma bind_ret {A B} (a : A) (k : A -> M B) : bind (ret a) k = k a.
Proof. reflexivity. Qed.

Ltac never_raises_step :=
  match goal with
  | |- never_raises _ (bind _ _) => apply never_raises_bind; [| intros ?]
  | |- never_raises _ (try_http _ _) => apply never_raises_try; [| intros ?]
  | |- never_raises _ (if ?b then _ else _) => destruct b
  | |- never_raises _ (match ?x with _ => _ end) => destruct x
  | |- never_raises _ (ret _) => apply never_raises_ret
  | |- never_raises _ (py_exit _) => apply never_raises_exit
  | |- never_raises _ (emit _) => apply never_raises_emit
  | |- never_raises _ (print _) => apply never_raises_emit
  | |- never_raises _ (raise _) =>
      apply never_raises_raise; let H := fresh in intro H; inversion H
  end.

Lemma find_folder_never_raises bad n l : never_raises bad (find_folder n l).
Proof. induction l as [|f l IH]; simpl; repeat never_raises_step; auto. Qed.

(** Trace properties counting one kind of event. *)
Definition count_is (q : event -> bool) (n : nat) (t : list event) : Prop :=
  count q t = n.

Lemma preserves_emit_count q n e :
  q e = false -> preserves (count_is q n) (emit e).
Proof.
  intros He t H. unfold count_is, count in *. simpl.
  rewrite filter_app, length_app, H. simpl. rewrite He. simpl. lia.
Qed.

Ltac preserves_count_step :=
  match goal with
  | |- preserves (count_is _ _) (emit _) => apply preserves_emit_count; reflexivity
  | |- preserves (count_is _ _) (print _) => apply preserves_emit_count; reflexivity
  | |- _ => preserves_step
  end.

Lemma find_folder_count q n k l :
  (forall s, q (EvPrint s) = false) -> preserves (count_is q k) (find_folder n l).
Proof.
  intros Hq. induction l as [|f l IH]; simpl; repeat preserves_count_step; auto.
  apply preserves_emit_count, Hq.
Qed.

Lemma get_folder_id_by_name_count q k E g p n :
  q (EvListFile (parents_query p)) = false -> (forall s, q (EvPrint s) = false) ->
  preserves (count_is q k) (get_folder_id_by_name E g p n).
Proof.
  intros Hl Hp. unfold get_folder_id_by_name, ListFile_GetList, error_message.
  repeat preserves_count_step; try apply preserves_emit_count; auto.
  apply find_folder_count, Hp.
Qed.

Lemma upload_count q k E g f p n :
  (forall e, is_file_op e = true \/ (exists s, e = EvPrint s) -> q e = false) ->
  preserves (count_is q k) (upload E g f p n).
Proof.
  intros Hq. unfold upload.
  repeat (preserves_count_step || (apply preserves_emit_count, Hq; eauto)).
Qed.

Definition is_sa_key (e : event) : bool :=
  match e with EvServiceAccountKey _ => true | _ => false end.

(** [hoare P m Q]: run from a trace satisfying [P], [m] leaves one
    satisfying [Q], however it ends. *)
Definition hoare {A} (P : list event -> Prop) (m : M A) (Q : list event -> Prop) : Prop :=
  forall t, P t -> Q (snd (m t)).

Lemma hoare_bind {A B} P Q (m : M A) (k : A -> M B) :
  hoare P m Q -> (forall a, preserves Q (k a)) -> hoare P (bind m k) Q.
Proof.
  intros Hm Hk t H. specialize (Hm t H). unfold bind.
  destruct (m t) as [[a|e|c] d]; simpl in *; auto. apply Hk, Hm.
Qed.

Lemma hoare_preserves {A} P (m : M A) : preserves P m -> hoare P m P.
Proof. intros H. exact H. Qed.

(** The trace starts with an authorization call. *)
Definition starts_with_auth (t : list event) : Prop :=
  exists ev rest, t = ev :: rest /\ is_auth_load ev = true.

Lemma framed_starts_with_auth {A} (m : M A) :
  framed m -> preserves starts_with_auth m.
Proof.
  intros Hf t (ev & rest & -> & Hev). rewrite (Hf (ev :: rest)). simpl.
  now exists ev, (rest ++ snd (m []))%list.
Qed.

Lemma upload_framed E g f p n : framed (upload E g f p n).
Proof. unfold upload. repeat framed_step. Qed.

Lemma upload_events q E g f p n :
  (forall e, is_file_op e = true \/ (exists s, e = EvPrint s) -> q e = true) ->
  preserves (all_events q) (upload E g f p n).
Proof.
  intros Hq. unfold upload.
  repeat (preserves_step || (apply preserves_emit, Hq; eauto)).
Qed.

Lemma get_folder_id_by_name_events q E g p n :
  q (EvListFile (parents_query p)) = true -> (forall s, q (EvPrint s) = true) ->
  preserves (all_events q) (get_folder_id_by_name E g p n).
Proof.
  intros Hl Hp. unfold get_folder_id_by_name, ListFile_GetList, error_message.
  repeat (preserves_step || apply preserves_emit; auto).
  apply find_folder_events, Hp.
Qed.

Lemma auth_with_credentials_count E p :
  hoare (fun t => t = []) (auth_with_credentials E p) (count_is is_auth_load 1).
Proof.
  intros t ->. unfold auth_with_credentials, LoadCredentialsFile, Refresh, Authorize,
    gauth_access_token_expired, print, bind, emit, ret, raise; simpl.
  destruct (env_load_credentials E p) as [|[[sa ex]|]]; simpl; try reflexivity.
  destruct ex; [destruct (env_refresh_ok E) | destruct (env_authorize_ok E)];
    reflexivity.
Qed.

Lemma auth_with_service_account_key_count E p :
  hoare (fun t => t = []) (auth_with_service_account_key E p) (count_is is_auth_load 1).
Proof.
  intros t ->. unfold auth_with_service_account_key, Authorize, bind, emit, ret, raise;
    simpl.
  destruct (env_service_account_key_ok E p); simpl; try reflexivity.
  destruct (env_authorize_ok E); reflexivity.
Qed.

Lemma auth_with_credentials_starts E p :
  hoare (fun t => t = []) (auth_with_credentials E p) starts_with_auth.
Proof.
  intros t ->. unfold auth_with_credentials, LoadCredentialsFile, Refresh, Authorize,
    gauth_access_token_expired, print, bind, emit, ret, raise; simpl.
  destruct (env_load_credentials E p) as [|[[sa ex]|]]; simpl;
    try (destruct ex; [destruct (env_refresh_ok E) | destruct (env_authorize_ok E)]);
    eexists; eexists; split; reflexivity.
Qed.

Lemma auth_with_service_account_key_starts E p :
  hoare (fun t => t = []) (auth_with_service_account_key E p) starts_with_auth.
Proof.
  intros t ->. unfold auth_with_service_account_key, Authorize, bind, emit, ret, raise;
    simpl.
  destruct (env_service_account_key_ok E p); simpl;
    try destruct (env_authorize_ok E); eexists; eexists; split; reflexivity.
Qed.

Ltac side_event :=
  first [ reflexivity
        | intros; reflexivity
        | let e := fresh "e" in let H := fresh "H" in let s := fresh "s" in
          intros e [H | [s ->]]; [destruct e; try discriminate H; reflexivity | reflexivity] ].

(** Steps through the part of [main] after authorization. *)
Ltac tail_count :=
  repeat (preserves_count_step
          || (apply get_folder_id_by_name_count; side_event)
          || (apply upload_count; side_event)).

Ltac tail_events :=
  repeat (preserves_step
          || (apply get_folder_id_by_name_events; side_event)
          || (apply upload_events; side_event)).

Ltac tail_framed :=
  apply framed_starts_with_auth;
  repeat (framed_step || apply get_folder_id_by_name_framed || apply upload_framed).

Ltac after_auth HA :=
  refine (hoare_bind _ _ _ _ HA _ [] eq_refl); intros ?g; cbv beta zeta.

Ltac enter_main Hc Hs :=
  unfold main, parse_args; rewrite ?Hc, ?Hs; cbv beta iota delta [negb andb];
  try rewrite bind_ret; cbv beta zeta iota; rewrite ?Hc, ?Hs; cbv iota.

(** Every listing call is absent and every created file has the single
    parent [i]. *)
Definition id_parent_event (i : string) (e : event) : bool :=
  match e with
  | EvListFile _ => false
  | EvCreateFile ua =>
      match ua_parents ua with
      | Some [l] => String.eqb (fl_kind l) "drive#fileLink" && String.eqb (fl_id l) i
      | _ => false
      end
  | _ => true
  end.

Lemma id_parent_event_spec i t :
  all_events (id_parent_event i) t ->
  (forall q, ~ In (EvListFile q) t) /\
  (forall ua, In (EvCreateFile ua) t ->
     ua_parents ua = Some [mkFileLink "drive#fileLink" i]).
Proof.
  unfold all_events. rewrite forallb_forall. intros H. split.
  - intros q Hin. specialize (H _ Hin). discriminate H.
  - intros ua Hin. specialize (H _ Hin). simpl in H.
    destruct (ua_parents ua) as [[|[k j] [|]]|]; try discriminate H.
    apply andb_true_iff in H as [Hk Hj].
    apply String.eqb_eq in Hk, Hj. simpl in *. now subst.
Qed.

Definition is_refresh (e : event) : bool :=
  match e with EvRefresh => true | _ => false end.

Definition is_authorize (e : event) : bool :=
  match e with EvAuthorize => true | _ => false end.

(** A session is ready for API calls when it holds credentials whose access
    token is not expired: PyDrive's [LoadAuth] then builds the service on the
    first call if [Authorize] has not, without any new consent. *)
Definition ready (g : gauth) : Prop :=
  exists c, g_credentials g = Some c /\ access_token_expired c = false.

(** [r] is what the first entry titled [n] of [l] gives, if any. *)
Definition is_first_match (n : string) (l : list entry) (r : option string) : Prop :=
  match r with
  | Some i => exists pre e suf, l = (pre ++ e :: suf)%list /\
               Forall (fun f => title f <> n) pre /\ title e = n /\ id e = i
  | None => Forall (fun f => title f <> n) l
  end.

Definition filter_is (q : event -> bool) (x : list event) (t : list event) : Prop :=
  filter q t = x.

Lemma preserves_emit_filter q x e :
  q e = false -> preserves (filter_is q x) (emit e).
Proof.
  intros He t H. unfold filter_is in *. simpl.
  rewrite filter_app, H. simpl. rewrite He. apply app_nil_r.
Qed.

Lemma find_folder_filter q x n l :
  (forall s, q (EvPrint s) = false) -> preserves (filter_is q x) (find_folder n l).
Proof.
  intros Hq. induction l as [|f l IH]; simpl; auto.
  - apply preserves_ret.
  - destruct (String.eqb (title f) n); auto.
    apply preserves_bind; [apply preserves_emit_filter, Hq | intros; apply preserves_ret].
Qed.

Lemma find_folder_result n l t :
  exists r, fst (find_folder n l t) = Ok r /\ is_first_match n l r.
Proof.
  revert t. induction l as [|f l IH]; intros t; simpl.
  - exists None. split; [reflexivity | constructor].
  - destruct (String.eqb (title f) n) eqn:Hf.
    + apply String.eqb_eq in Hf. exists (Some (id f)). split; [reflexivity |].
      exists [], f, l. repeat split; auto.
    + apply String.eqb_neq in Hf. destruct (IH t) as [r [Hr Hm]].
      exists r. split; [exact Hr |]. destruct r as [i|]; simpl in *.
      * destruct Hm as (pre & e & suf & -> & Hpre & He & Hi).
        exists (f :: pre), e, suf. repeat split; auto.
      * constructor; auto.
Qed.

Lemma make_upload_args_title p n s :
  ua_title (make_upload_args p n) = Some s <-> n = Some s /\ s <> "".
Proof.
  unfold make_upload_args, truthy. simpl.
  destruct n as [x|]; simpl; [| split; [discriminate | intros [H _]; discriminate H]].
  destruct (String.eqb x "") eqn:Hx; simpl.
  - apply String.eqb_eq in Hx. subst x. split; [discriminate |].
    intros [H Hne]. injection H as <-. contradiction.
  - apply String.eqb_neq in Hx. split.
    + intros H. injection H as <-. auto.
    + intros [H _]. exact H.
Qed.

Lemma make_upload_args_parents p n i :
  ua_parents (make_upload_args p n) = Some [mkFileLink "drive#fileLink" i] <->
  p = Some i /\ i <> "".
Proof.
  unfold make_upload_args, truthy. simpl.
  destruct p as [x|]; simpl; [| split; [discriminate | intros [H _]; discriminate H]].
  destruct (String.eqb x "") eqn:Hx; simpl.
  - apply String.eqb_eq in Hx. subst x. split; [discriminate |].
    intros [H Hne]. injection H as <-. contradiction.
  - apply String.eqb_neq in Hx. split.
    + intros H. injection H as <-. auto.
    + intros [H _]. injection H as <-. reflexivity.
Qed.

Lemma make_upload_args_no_parents p n :
  ua_parents (make_upload_args p n) = None <-> truthy p = false.
Proof.
  unfold make_upload_args. simpl. destruct (truthy p); split; congruence.
Qed.

Lemma os_path_join_credentials cwd :
  cwd <> "" -> ends_with_slash cwd = false ->
  os_path_join cwd "credentials.json" = cwd ++ "/credentials.json".
Proof.
  intros Hne Hs. unfold os_path_join. simpl. rewrite Hs.
  destruct (String.eqb cwd "") eqn:He; [apply String.eqb_eq in He; contradiction |].
  reflexivity.
Qed.

(** ** The three stages of [main] *)

(** The authorization step of [main]. *)
Definition auth_select (E : env) (args : upload_cli) : M gauth :=
  if truthy (credentials args) then
    auth_with_credentials E (str_of (credentials args))
  else if truthy (service_account_key args) then
    auth_with_service_account_key E (str_of (service_account_key args))
  else raise (ExnMsg unreachable_msg).

(** The choice of the parent folder in [main]. *)
Definition resolve_parent (E : env) (args : upload_cli) (drive : gauth)
  : M (option string) :=
  if truthy (directory_id args) then ret (directory_id args)
  else if truthy (directory_name args) then
    pid <- get_folder_id_by_name E drive "root" (str_of (directory_name args)) ;;
    if negb (truthy pid) then
      raise (ExnMsg ("Cannot find parent directory " ++ str_of (directory_name args)))
    else ret pid
  else ret (Some "").

Lemma main_stages E cli :
  main E cli =
    (args <- parse_args cli ;;
     gauth <- auth_select E args ;;
     parent_folder_id <- resolve_parent E args gauth ;;
     upload E gauth (file args) parent_folder_id (name args)).
Proof. reflexivity. Qed.

Lemma auth_with_credentials_framed' E p : framed (auth_with_credentials E p).
Proof.
  unfold auth_with_credentials, LoadCredentialsFile, Refresh, Authorize.
  repeat framed_step.
Qed.

Lemma auth_with_service_account_key_framed' E p : framed (auth_with_service_account_key E p).
Proof. unfold auth_with_service_account_key, Authorize. repeat framed_step. Qed.

Lemma auth_select_framed E a : framed (auth_select E a).
Proof.
  unfold auth_select. repeat framed_step;
    auto using auth_with_credentials_framed', auth_with_service_account_key_framed'.
Qed.

Lemma resolve_parent_framed E a g : framed (resolve_parent E a g).
Proof.
  unfold resolve_parent. repeat (framed_step || apply get_folder_id_by_name_framed).
Qed.

(** A run of [main] from the empty trace, stage by stage. *)
Lemma main_run E cli :
  main E cli [] =
  if negb (truthy (credentials cli)) && negb (truthy (service_account_key cli))
  then (Raise (ExnMsg no_auth_msg), [])
  else
    match auth_select E cli [] with
    | (Ok g, d1) =>
        match resolve_parent E cli g [] with
        | (Ok pid, d2) =>
            (fst (upload E g (file cli) pid (name cli) []),
             (d1 ++ d2 ++ snd (upload E g (file cli) pid (name cli) []))%list)
        | (Raise e, d2) => (Raise e, (d1 ++ d2)%list)
        | (Exit c, d2) => (Exit c, (d1 ++ d2)%list)
        end
    | (Raise e, d1) => (Raise e, d1)
    | (Exit c, d1) => (Exit c, d1)
    end.
Proof.
  rewrite main_stages. unfold parse_args.
  destruct (negb (truthy (credentials cli)) && negb (truthy (service_account_key cli)));
    [reflexivity |].
  rewrite bind_ret. unfold bind at 1.
  destruct (auth_select E cli []) as [[g|e|c] d1]; try reflexivity.
  unfold bind at 1. rewrite (resolve_parent_framed E cli g d1).
  destruct (resolve_parent E cli g []) as [[pid|e|c] d2]; simpl; try reflexivity.
  rewrite (upload_framed E g (file cli) pid (name cli) (d1 ++ d2)%list).
  now rewrite app_assoc.
Qed.

Lemma all_events_of_preserves {A} q (m : M A) :
  preserves (all_events q) m -> all_events q (snd (m [])).
Proof. intros H. apply H, all_events_nil. Qed.

Lemma auth_select_events E a :
  preserves (all_events no_file_op_or_list) (auth_select E a).
Proof.
  unfold auth_select. repeat preserves_step;
    auto using auth_with_credentials_events, auth_with_service_account_key_events.
Qed.

Lemma all_events_in q t e : all_events q t -> In e t -> q e = true.
Proof. unfold all_events. rewrite forallb_forall. auto. Qed.

Definition is_upload_call (e : event) : bool :=
  match e with EvUpload _ => true | _ => false end.

Lemma all_events_filter_nil (q p : event -> bool) t :
  (forall e, q e = true -> p e = false) -> all_events q t -> filter p t = [].
Proof.
  intros Hqp. unfold all_events. induction t as [|e t IH]; simpl; auto.
  rewrite andb_true_iff. intros [He Ht]. rewrite (Hqp e He). auto.
Qed.

Lemma get_folder_id_by_name_list_calls E g p n :
  filter is_list_call (snd (get_folder_id_by_name E g p n [])) =
    [EvListFile (parents_query p)].
Proof.
  change (filter_is is_list_call [EvListFile (parents_query p)]
            (snd (get_folder_id_by_name E g p n []))).
  cbv beta delta [get_folder_id_by_name ListFile_GetList error_message try_http
                  bind emit ret raise py_exit print].
  destruct (env_list E (parents_query p)) as [l|err]; cbv beta iota.
  - exact (find_folder_filter _ _ n l (fun _ => eq_refl) _ eq_refl).
  - reflexivity.
Qed.

Lemma resolve_parent_list_calls E a g :
  filter is_list_call (snd (resolve_parent E a g [])) =
    if truthy (directory_id a) then []
    else if truthy (directory_name a) then [EvListFile (parents_query "root")]
    else [].
Proof.
  unfold resolve_parent.
  destruct (truthy (directory_id a)); [reflexivity |].
  destruct (truthy (directory_name a)); [| reflexivity].
  rewrite <- (get_folder_id_by_name_list_calls E g "root" (str_of (directory_name a))).
  unfold bind.
  destruct (get_folder_id_by_name E g "root" (str_of (directory_name a)) [])
    as [[r|e|c] d]; simpl; try reflexivity.
  destruct (negb (truthy r)); reflexivity.
Qed.

Lemma resolve_parent_no_file_op E a g :
  all_events no_file_op (snd (resolve_parent E a g [])).
Proof.
  apply all_events_of_preserves. unfold resolve_parent.
  repeat (preserves_step || apply get_folder_id_by_name_no_file_op).
Qed.

Lemma upload_creates E g f p n ua :
  In (EvCreateFile ua) (snd (upload E g f p n [])) -> ua = make_upload_args p n.
Proof.
  cbv beta delta [upload bind emit ret raise print].
  destruct (env_file_exists E f); cbv beta iota;
    [destruct (env_upload_ok E); cbv beta iota |]; simpl;
    intros H; repeat destruct H as [H|H]; try discriminate H;
    try (injection H as <-; reflexivity); contradiction.
Qed.

Lemma no_file_op_or_list_no_file_op e :
  no_file_op_or_list e = true -> no_file_op e = true.
Proof.
  unfold no_file_op_or_list, no_file_op. destruct (is_file_op e); auto.
Qed.

(** Every file [main] creates is the one of its upload stage. *)
Lemma main_created_files E cli ua :
  In (EvCreateFile ua) (snd (main E cli [])) ->
  exists g d1 pid d2,
    auth_select E cli [] = (Ok g, d1) /\ resolve_parent E cli g [] = (Ok pid, d2) /\
    ua = make_upload_args pid (name cli).
Proof.
  rewrite main_run.
  destruct (negb (truthy (credentials cli)) && negb (truthy (service_account_key cli)));
    [simpl; tauto |].
  pose proof (all_events_of_preserves _ _ (auth_select_events E cli)) as HA.
  destruct (auth_select E cli []) as [[g|e|c] d1] eqn:Ha; simpl in HA |- *;
    intros Hin;
    try (apply (all_events_in _ _ _ HA) in Hin; discriminate Hin).
  pose proof (resolve_parent_no_file_op E cli g) as HR.
  destruct (resolve_parent E cli g []) as [[pid|e|c] d2] eqn:Hr; simpl in HR, Hin;
    apply in_app_or in Hin as [Hin|Hin];
    try (apply (all_events_in _ _ _ HA) in Hin; discriminate Hin);
    try (apply (all_events_in _ _ _ HR) in Hin; discriminate Hin).
  apply in_app_or in Hin as [Hin|Hin];
    [apply (all_events_in _ _ _ HR) in Hin; discriminate Hin |].
  exists g, d1, pid, d2. repeat split; auto. eapply upload_creates; exact Hin.
Qed.

(** Whatever the body of a listing error, [get_folder_id_by_name] raises the
    [ValueError] of [ast.literal_eval] right after the listing call. *)
Lemma get_folder_id_by_name_listing_error E g p n err :
  env_list E (parents_query p) = ListHttpError err ->
  get_folder_id_by_name E g p n [] = (Raise ExnValueError, [EvListFile (parents_query p)]).
Proof.
  intros Hl.
  cbv beta delta [get_folder_id_by_name ListFile_GetList error_message try_http
                  bind emit ret raise py_exit print].
  rewrite Hl. reflexivity.
Qed.

Lemma upload_ok_trace E g f p n :
  fst (upload E g f p n []) = Ok tt ->
  snd (upload E g f p n []) =
    [EvCreateFile (make_upload_args p n); EvSetContentFile f; EvPrint "Uploading file";
     EvUpload [("supportsTeamDrives", true)]].
Proof.
  cbv beta delta [upload bind emit ret raise print].
  destruct (env_file_exists E f); cbv beta iota;
    [destruct (env_upload_ok E); cbv beta iota |]; intros H; try discriminate H.
  reflexivity.
Qed.

Lemma auth_select_no_exit E a t c : fst (auth_select E a t) <> Exit c.
Proof.
  unfold auth_select.
  destruct (truthy (credentials a)); [apply auth_with_credentials_no_exit |].
  destruct (truthy (service_account_key a)); [apply auth_with_service_account_key_no_exit |].
  discriminate.
Qed.

Lemma no_file_op_or_list_not_list e :
  no_file_op_or_list e = true -> is_list_call e = false.
Proof.
  unfold no_file_op_or_list. destruct (is_list_call e); auto.
  rewrite orb_true_r. discriminate.
Qed.

Lemma no_file_op_not_upload e : no_file_op e = true -> is_upload_call e = false.
Proof. destruct e; simpl; auto. Qed.

Lemma no_file_op_or_list_not_upload e :
  no_file_op_or_list e = true -> is_upload_call e = false.
Proof. destruct e; simpl; auto. Qed.





Lemma resolve_parent_lists_root E a g :
  truthy (directory_id a) = false -> truthy (directory_name a) = true ->
  In (EvListFile (parents_query "root")) (snd (resolve_parent E a g [])).
Proof.
  intros Hid Hn. pose proof (resolve_parent_list_calls E a g) as H.
  rewrite Hid, Hn in H.
  apply (proj1 (filter_In is_list_call _ _)). rewrite H. left. reflexivity.
Qed.

Lemma auth_select_parse_ok E a g :
  fst (auth_select E a []) = Ok g ->
  negb (truthy (credentials a)) && negb (truthy (service_account_key a)) = false.
Proof.
  unfold auth_select.
  destruct (truthy (credentials a)); [reflexivity |].
  destruct (truthy (service_account_key a)); [reflexivity |].
  discriminate.
Qed.

(** ** Claims *)

Ltac c1_branch A HA HP :=
  let HPA := fresh "HPA" in
  let d := fresh "d" in
  specialize (HP [] (all_events_nil _));
  destruct (A []) as [[?g|?e|?c] d] eqn:?; simpl in HP, HA |- *;
  [ | | exfalso; eapply HA; reflexivity ];
  (assert (HPA : all_events no_file_op d)
    by (eapply all_events_weaken; [|exact HP]; intros ev;
        unfold no_file_op, no_file_op_or_list; destruct (is_file_op ev); auto));
  [ | split; [eexists; reflexivity | exact HPA] ].

Ltac c1_finish :=
  match goal with
  | Hres : fst (get_folder_id_by_name ?E ?drive _ _ []) = _, Hr : truthy _ = false,
    HPA : all_events _ ?d |- context [get_folder_id_by_name _ ?g _ _ ?d] =>
      change (get_folder_id_by_name E g) with (get_folder_id_by_name E drive);
      rewrite (get_folder_id_by_name_framed E drive _ _ d), Hres; simpl; rewrite Hr;
      simpl; split; [eexists; reflexivity |];
      apply all_events_app; [exact HPA |];
      apply (get_folder_id_by_name_no_file_op E drive "root" _ [] (all_events_nil _))
  end.

(** C1: when the folder is chosen by name (no identifier) and the name
    resolves to nothing, [main] ends with an exception and the trace holds no
    [CreateFile], [SetContentFile] or [Upload] call. *)
Theorem main_unresolved_name_aborts (E : env) (cli : upload_cli)
    (drive : gauth) (r : option string) :
  truthy (directory_id cli) = false ->
  truthy (directory_name cli) = true ->
  fst (get_folder_id_by_name E drive "root" (str_of (directory_name cli)) []) = Ok r ->
  truthy r = false ->
  (exists e, fst (main E cli []) = Raise e) /\
  all_events no_file_op (snd (main E cli [])).
Proof.
  intros Hid Hname Hres Hr.
  unfold main; cbv beta iota zeta delta [bind ret raise parse_args].
  destruct (negb (truthy (credentials cli)) && negb (truthy (service_account_key cli))).
  { split; [eexists; reflexivity | apply all_events_nil]. }
  rewrite Hid, Hname.
  destruct (truthy (credentials cli)); [| destruct (truthy (service_account_key cli))].
  3: { split; [eexists; reflexivity | apply all_events_nil]. }
  - pose proof (auth_with_credentials_no_exit E (str_of (credentials cli)) []) as HA.
    pose proof (auth_with_credentials_events E (str_of (credentials cli))) as HP.
    c1_branch (auth_with_credentials E (str_of (credentials cli))) HA HP.
    c1_finish.
  - pose proof (auth_with_service_account_key_no_exit E
                  (str_of (service_account_key cli)) []) as HA.
    pose proof (auth_with_service_account_key_events E
                  (str_of (service_account_key cli))) as HP.
    c1_branch (auth_with_service_account_key E (str_of (service_account_key cli))) HA HP.
    c1_finish.
Qed.

Lemma main_unresolved_name_aborts_witness :
  (exists e, fst (main sample_env
     (cli_of (Some "credentials.json") None "report.pdf" None (Some "Missing") None) [])
     = Raise e) /\
  all_events no_file_op (snd (main sample_env
     (cli_of (Some "credentials.json") None "report.pdf" None (Some "Missing") None) [])).
Proof.
  apply (main_unresolved_name_aborts sample_env
           (cli_of (Some "credentials.json") None "report.pdf" None (Some "Missing") None)
           GoogleAuth None); reflexivity.
Defined.

(** C5: with neither [--credentials] nor [--service-account-key] (nor a
    non-empty value for either), [main] raises the configuration error of
    [parse_args] and makes no call at all: its trace is empty. *)
Theorem main_without_auth_fails_before_any_call (E : env) (cli : upload_cli) :
  truthy (credentials cli) = false ->
  truthy (service_account_key cli) = false ->
  main E cli [] = (Raise (ExnMsg no_auth_msg), []).
Proof.
  intros Hc Hs. unfold main, parse_args, bind. rewrite Hc, Hs. reflexivity.
Qed.

Lemma main_without_auth_fails_before_any_call_witness :
  main sample_env (cli_of None None "report.pdf" None None (Some "D1")) [] =
  (Raise (ExnMsg no_auth_msg), []).
Proof.
  apply main_without_auth_fails_before_any_call; reflexivity.
Defined.

(** C10: whenever [parse_args] succeeds one of the two authorization options
    is set, so [main] never raises the "Actually we cannot get here"
    exception of its last [else] branch. *)
Theorem main_last_else_unreachable (E : env) (cli : upload_cli) :
  (forall a t, parse_args cli [] = (Ok a, t) ->
     truthy (credentials a) = true \/ truthy (service_account_key a) = true) /\
  never_raises (ExnMsg unreachable_msg) (main E cli).
Proof.
  split.
  - intros a t. unfold parse_args.
    destruct (truthy (credentials cli)) eqn:Hc, (truthy (service_account_key cli)) eqn:Hs;
      simpl; intros H; inversion H; subst; auto.
  - unfold main, parse_args.
    destruct (negb (truthy (credentials cli)) && negb (truthy (service_account_key cli)))
      eqn:Hcond.
    + intros t Hc. discriminate Hc.
    + rewrite bind_ret. cbv beta zeta.
      destruct (truthy (credentials cli)) eqn:Hc;
        [| destruct (truthy (service_account_key cli)) eqn:Hs; [| discriminate Hcond]].
      all: unfold auth_with_credentials, auth_with_service_account_key,
             LoadCredentialsFile, Refresh, Authorize, get_folder_id_by_name,
             ListFile_GetList, error_message, upload.
      all: repeat never_raises_step; apply find_folder_never_raises.
Qed.

Lemma main_last_else_unreachable_witness :
  truthy (credentials
    (cli_of (Some "credentials.json") None "a.txt" None None None)) = true \/
  truthy (service_account_key
    (cli_of (Some "credentials.json") None "a.txt" None None None)) = true.
Proof.
  apply (proj1 (main_last_else_unreachable sample_env
           (cli_of (Some "credentials.json") None "a.txt" None None None))
           _ []).
  reflexivity.
Defined.

(** C2, counterexample: an invocation giving both [--credentials] and
    [--service-account-key] passes [parse_args]; [main] then authorizes with
    the credential bundle only. *)
Lemma parse_args_accepts_both_auth_sources :
  parse_args (cli_of (Some "credentials.json") (Some "key.json") "a.txt" None None (Some "D1")) []
  = (Ok (cli_of (Some "credentials.json") (Some "key.json") "a.txt" None None (Some "D1")), []) /\
  snd (main sample_env
         (cli_of (Some "credentials.json") (Some "key.json") "a.txt" None None (Some "D1")) [])
  = [EvLoadCredentialsFile "credentials.json";
     EvPrint "Authorizing using current token"; EvAuthorize;
     EvPrint "Successfully authorized";
     EvCreateFile (mkUploadArgs None
                     (Some [mkFileLink "drive#fileLink" "D1"]));
     EvSetContentFile "a.txt"; EvPrint "Uploading file";
     EvUpload [("supportsTeamDrives", true)]].
Proof. split; vm_compute; reflexivity. Qed.

(** C2, amended: [parse_args] rejects an invocation exactly when neither
    authorization option is set (non-empty), and makes no call; an accepted
    invocation makes exactly one authorization call, and it is the first call
    of the run; with [--credentials] set that call is the credential bundle
    and the service-account key is never read. *)
Theorem main_uses_one_auth_method (E : env) (cli : upload_cli) :
  (forall t, parse_args cli t =
     if truthy (credentials cli) || truthy (service_account_key cli)
     then (Ok cli, t) else (Raise (ExnMsg no_auth_msg), t)) /\
  count is_auth_load (snd (main E cli [])) =
    (if truthy (credentials cli) || truthy (service_account_key cli) then 1 else 0) /\
  (truthy (credentials cli) = true -> count is_sa_key (snd (main E cli [])) = 0) /\
  (truthy (credentials cli) || truthy (service_account_key cli) = true ->
   starts_with_auth (snd (main E cli []))).
Proof.
  destruct (truthy (credentials cli)) eqn:Hc;
    [| destruct (truthy (service_account_key cli)) eqn:Hs]; simpl.
  - split; [intros t; unfold parse_args; now rewrite Hc |].
    split; [| split].
    + enter_main Hc Hc. after_auth (auth_with_credentials_count E (str_of (credentials cli))).
      tail_count.
    + intros _. enter_main Hc Hc.
      refine (preserves_bind (count_is is_sa_key 0) _ _ _ _ [] eq_refl);
        [| intros g; cbv beta zeta; tail_count].
      unfold auth_with_credentials, LoadCredentialsFile, Refresh, Authorize.
      repeat preserves_count_step.
    + intros _. enter_main Hc Hc.
      after_auth (auth_with_credentials_starts E (str_of (credentials cli))). tail_framed.
  - split; [intros t; unfold parse_args; now rewrite Hc, Hs |].
    split; [| split]; [| discriminate |].
    + enter_main Hc Hs.
      after_auth (auth_with_service_account_key_count E (str_of (service_account_key cli))).
      tail_count.
    + intros _. enter_main Hc Hs.
      after_auth (auth_with_service_account_key_starts E
                    (str_of (service_account_key cli))).
      tail_framed.
  - split; [intros t; unfold parse_args; now rewrite Hc, Hs |].
    split; [| split]; [| discriminate | discriminate].
    enter_main Hc Hs. reflexivity.
Qed.

Lemma main_uses_one_auth_method_witness :
  starts_with_auth (snd (main sample_env
    (cli_of (Some "credentials.json") (Some "key.json") "a.txt" None None (Some "D1")) [])).
Proof.
  apply (proj2 (proj2 (proj2 (main_uses_one_auth_method sample_env
    (cli_of (Some "credentials.json") (Some "key.json") "a.txt" None None (Some "D1")))))).
  reflexivity.
Defined.

(** C4, counterexample: [--directory-id ''] is falsy in Python, so with
    [--directory-name Reports] the name is looked up after all. *)
Lemma empty_directory_id_looks_up_name :
  In (EvListFile (parents_query "root"))
     (snd (main sample_env
        (cli_of (Some "credentials.json") None "a.txt" None (Some "Reports") (Some "")) [])).
Proof. vm_compute. tauto. Qed.

(** C4, amended: when [--directory-id] is set to a non-empty identifier,
    [main] makes no listing call (the folder name is never looked up) and
    every file it creates has that identifier as its single parent. An
    empty [--directory-id ''] counts as absent, like a missing one: with a
    folder name given, once the authorization succeeds, the name is looked
    up in the root folder. *)
Theorem main_directory_id_precedence (E : env) (cli : upload_cli) :
  (truthy (directory_id cli) = true ->
   (forall q, ~ In (EvListFile q) (snd (main E cli []))) /\
   (forall ua, In (EvCreateFile ua) (snd (main E cli [])) ->
      ua_parents ua = Some [mkFileLink "drive#fileLink" (str_of (directory_id cli))])) /\
  (directory_id cli = None \/ directory_id cli = Some "" ->
   truthy (directory_name cli) = true ->
   forall g, fst (auth_select E cli []) = Ok g ->
     In (EvListFile (parents_query "root")) (snd (main E cli []))).
Proof.
  split.
  {
  intros Hd. apply id_parent_event_spec.
  assert (Htail : forall g, preserves (all_events (id_parent_event (str_of (directory_id cli))))
    (parent_folder_id <-
       (if truthy (directory_id cli) then ret (directory_id cli)
        else if truthy (directory_name cli) then
          pid <- get_folder_id_by_name E g "root" (str_of (directory_name cli)) ;;
          if negb (truthy pid) then
            raise (ExnMsg ("Cannot find parent directory " ++ str_of (directory_name cli)))
          else ret pid
        else ret (Some "")) ;;
     upload E g (file cli) parent_folder_id (name cli))).
  { intros g. rewrite Hd, bind_ret. unfold upload.
    repeat (preserves_step
            || (apply preserves_emit; unfold id_parent_event, make_upload_args;
                rewrite Hd; simpl; rewrite String.eqb_refl; reflexivity)). }
  destruct (truthy (credentials cli)) eqn:Hc;
    [| destruct (truthy (service_account_key cli)) eqn:Hs].
  - enter_main Hc Hc.
    refine (preserves_bind _ _ _ _ _ [] eq_refl); [| intros g; apply Htail].
    unfold auth_with_credentials, LoadCredentialsFile, Refresh, Authorize.
    repeat preserves_step.
  - enter_main Hc Hs.
    refine (preserves_bind _ _ _ _ _ [] eq_refl); [| intros g; apply Htail].
    unfold auth_with_service_account_key, Authorize. repeat preserves_step.
  - enter_main Hc Hs. reflexivity.
  }
  intros Hd Hn g Hg.
  assert (Hid : truthy (directory_id cli) = false)
    by (destruct Hd as [-> | ->]; reflexivity).
  rewrite main_run, (auth_select_parse_ok E cli g Hg).
  destruct (auth_select E cli []) as [[g'|e|c] d1]; simpl in Hg; try discriminate Hg.
  pose proof (resolve_parent_lists_root E cli g' Hid Hn) as HR.
  destruct (resolve_parent E cli g' []) as [[pid|e|c] d2]; simpl in HR |- *;
    apply in_or_app; right; first [exact HR | apply in_or_app; left; exact HR].
Qed.

Lemma main_directory_id_precedence_witness :
  ~ In (EvListFile (parents_query "root"))
    (snd (main sample_env (cli_of None (Some "key.json") "a.txt" None (Some "Reports") (Some "D1")) [])) /\
  In (EvListFile (parents_query "root"))
    (snd (main sample_env (cli_of None (Some "key.json") "a.txt" None (Some "Reports") (Some "")) [])).
Proof.
  split.
  - refine (proj1 (proj1 (main_directory_id_precedence sample_env
             (cli_of None (Some "key.json") "a.txt" None (Some "Reports") (Some "D1"))) _) _).
    reflexivity.
  - eapply (proj2 (main_directory_id_precedence sample_env
             (cli_of None (Some "key.json") "a.txt" None (Some "Reports") (Some "")))
             (or_intror eq_refl) eq_refl).
    reflexivity.
Defined.

(** C6: for a bundle that loads, [auth_with_credentials] raises when it holds
    no credentials; with an expired token it calls [Refresh] once and never
    [Authorize]; with a valid token it calls [Authorize] once and never
    [Refresh]; when that call succeeds it returns a ready session. *)
Theorem auth_with_credentials_branches (E : env) (path : string) (oc : option cred) :
  env_load_credentials E path = Loaded oc ->
  (oc = None ->
     fst (auth_with_credentials E path []) = Raise (ExnMsg ("Error while loading " ++ path))) /\
  (forall c, oc = Some c -> access_token_expired c = true ->
     count is_refresh (snd (auth_with_credentials E path [])) = 1 /\
     count is_authorize (snd (auth_with_credentials E path [])) = 0 /\
     (forall g, fst (auth_with_credentials E path []) = Ok g -> ready g) /\
     (env_refresh_ok E = true -> exists g, fst (auth_with_credentials E path []) = Ok g)) /\
  (forall c, oc = Some c -> access_token_expired c = false ->
     count is_refresh (snd (auth_with_credentials E path [])) = 0 /\
     count is_authorize (snd (auth_with_credentials E path [])) = 1 /\
     (forall g, fst (auth_with_credentials E path []) = Ok g -> ready g /\ g_service g = true) /\
     (env_authorize_ok E = true -> exists g, fst (auth_with_credentials E path []) = Ok g)).
Proof.
  intros Hload.
  unfold auth_with_credentials, LoadCredentialsFile, Refresh, Authorize,
    gauth_access_token_expired, print, bind, emit, ret, raise; simpl.
  rewrite Hload. simpl.
  split; [| split].
  - intros ->. reflexivity.
  - intros [sa ex] -> Hex. simpl in Hex. subst ex. simpl.
    destruct (env_refresh_ok E); simpl; (split; [reflexivity | split; [reflexivity | split]]).
    + intros g Hg. injection Hg as <-. eexists. split; reflexivity.
    + intros _. eexists. reflexivity.
    + intros g Hg. discriminate Hg.
    + intros H. discriminate H.
  - intros [sa ex] -> Hex. simpl in Hex. subst ex. simpl.
    destruct (env_authorize_ok E); simpl; (split; [reflexivity | split; [reflexivity | split]]).
    + intros g Hg. injection Hg as <-. split; [eexists; split; reflexivity | reflexivity].
    + intros _. eexists. reflexivity.
    + intros g Hg. discriminate Hg.
    + intros H. discriminate H.
Qed.

Lemma auth_with_credentials_branches_witness :
  count is_refresh (snd (auth_with_credentials sample_env "expired.json" [])) = 1 /\
  count is_authorize (snd (auth_with_credentials sample_env "expired.json" [])) = 0 /\
  (forall g, fst (auth_with_credentials sample_env "expired.json" []) = Ok g -> ready g) /\
  (env_refresh_ok sample_env = true ->
     exists g, fst (auth_with_credentials sample_env "expired.json" []) = Ok g).
Proof.
  apply (proj1 (proj2 (auth_with_credentials_branches sample_env "expired.json"
                         (Some (mkCred false true)) eq_refl)) (mkCred false true));
    reflexivity.
Defined.

(** C7: [get_folder_id_by_name] makes exactly one listing call, with the
    query "'<parent>' in parents and trashed=false"; when the listing
    succeeds it returns the id of the first listed entry whose title equals
    the name, or [None] when no title does. *)
Theorem get_folder_id_by_name_lookup (E : env) (drive : gauth) (p n : string) :
  filter is_list_call (snd (get_folder_id_by_name E drive p n [])) =
    [EvListFile ("'" ++ p ++ "' in parents and trashed=false")] /\
  (forall l, env_list E (parents_query p) = ListOk l ->
     exists r, fst (get_folder_id_by_name E drive p n []) = Ok r /\ is_first_match n l r).
Proof.
  split.
  - change (filter_is is_list_call [EvListFile (parents_query p)]
              (snd (get_folder_id_by_name E drive p n []))).
    cbv beta delta [get_folder_id_by_name ListFile_GetList error_message try_http
                    bind emit ret raise py_exit print].
    destruct (env_list E (parents_query p)) as [l|err]; cbv beta iota.
    + exact (find_folder_filter _ _ n l (fun _ => eq_refl) _ eq_refl).
    + reflexivity.
  - intros l Hl.
    unfold get_folder_id_by_name, ListFile_GetList, try_http at 1.
    unfold bind at 1 2, emit at 1. simpl. rewrite Hl. simpl.
    apply find_folder_result.
Qed.

Lemma get_folder_id_by_name_lookup_witness :
  exists r, fst (get_folder_id_by_name sample_env GoogleAuth "root" "Reports" []) = Ok r /\
    is_first_match "Reports"
      [mkEntry "a.txt" "X1"; mkEntry "Reports" "F123"; mkEntry "Reports" "F999"] r.
Proof.
  apply (proj2 (get_folder_id_by_name_lookup sample_env GoogleAuth "root" "Reports")).
  reflexivity.
Defined.

(** C3, counterexample: the provider's 404 error for a missing parent,
    whose message is "File not found: ", does not end the run with
    [exit(1)]: [ast.literal_eval] fails on the [bytes] body first. *)
Lemma file_not_found_error_does_not_exit :
  get_folder_id_by_name missing_parent_env GoogleAuth "root" "Reports" [] =
    (Raise ExnValueError, [EvListFile (parents_query "root")]) /\
  fst (get_folder_id_by_name missing_parent_env GoogleAuth "root" "Reports" []) <> Exit 1.
Proof. split; [reflexivity | discriminate]. Qed.

(** C3, as the code behaves: when the listing raises an [HttpError], the
    handler's [ast.literal_eval(err.content)] raises [ValueError] on the
    [bytes] body, whatever error it is; so neither the [exit(1)] branch for
    "File not found: " nor the re-raise of the original error is ever
    taken, and nothing is printed. *)
Theorem get_folder_id_by_name_http_errors (E : env) (drive : gauth) (p n : string)
    (err : http_error) :
  env_list E (parents_query p) = ListHttpError err ->
  get_folder_id_by_name E drive p n [] =
    (Raise ExnValueError, [EvListFile (parents_query p)]) /\
  (forall c, fst (get_folder_id_by_name E drive p n []) <> Exit c) /\
  fst (get_folder_id_by_name E drive p n []) <> Raise (ExnHttp err).
Proof.
  intros Hl. rewrite (get_folder_id_by_name_listing_error E drive p n err Hl).
  split; [reflexivity | split; [intros c |]; discriminate].
Qed.

Lemma get_folder_id_by_name_http_errors_witness :
  get_folder_id_by_name sample_env GoogleAuth "Missing" "Reports" [] =
    (Raise ExnValueError, [EvListFile (parents_query "Missing")]).
Proof.
  apply (proj1 (get_folder_id_by_name_http_errors sample_env GoogleAuth "Missing" "Reports"
                  (mkHttpError 404 (ErrBody "File not found: ")) eq_refl)).
Defined.

(** C8, counterexample: an empty destination name is falsy, so the created
    file gets no title although a name was given. *)
Lemma upload_empty_name_sets_no_title :
  hd_error (snd (upload sample_env GoogleAuth "a.txt" (Some "D1") (Some "") [])) =
    Some (EvCreateFile (mkUploadArgs None (Some [mkFileLink "drive#fileLink" "D1"]))).
Proof. reflexivity. Qed.

(** C8, amended: [upload] first creates the file object; its title is the
    destination name exactly when a non-empty name is given, its single
    parent is the folder id exactly when a non-empty id is given (otherwise
    it has no parent); every upload call carries [supportsTeamDrives=True],
    and the upload call is made once the local file opens. *)
Theorem upload_request (E : env) (drive : gauth) (f : string) (p n : option string) :
  exists ua rest,
    snd (upload E drive f p n []) = EvCreateFile ua :: rest /\
    (forall s, ua_title ua = Some s <-> n = Some s /\ s <> "") /\
    (forall i, ua_parents ua = Some [mkFileLink "drive#fileLink" i] <-> p = Some i /\ i <> "") /\
    (ua_parents ua = None <-> truthy p = false) /\
    (forall prm, In (EvUpload prm) rest -> prm = [("supportsTeamDrives", true)]) /\
    (env_file_exists E f = true -> In (EvUpload [("supportsTeamDrives", true)]) rest).
Proof.
  exists (make_upload_args p n).
  cbv beta delta [upload bind emit ret raise print].
  destruct (env_file_exists E f) eqn:Hf; cbv beta iota;
    [destruct (env_upload_ok E); cbv beta iota |];
    eexists; (split; [reflexivity |]);
    (split; [apply make_upload_args_title |]);
    (split; [apply make_upload_args_parents |]);
    (split; [apply make_upload_args_no_parents |]).
  - split.
    + intros prm H. simpl in H. destruct H as [H|[H|[H|[]]]]; try discriminate H.
      injection H as <-. reflexivity.
    + intros _. simpl. auto.
  - split.
    + intros prm H. simpl in H. destruct H as [H|[H|[H|[]]]]; try discriminate H.
      injection H as <-. reflexivity.
    + intros _. simpl. auto.
  - split.
    + intros prm H. simpl in H. destruct H as [H|[]]. discriminate H.
    + intros H. discriminate H.
Qed.

(** C9, counterexample: [--output-file ''] is falsy, so the bundle goes to
    [credentials.json] in the working directory, not to the path given. *)
Lemma empty_output_file_uses_default :
  snd (get_credentials sample_env "secret.json" (Some "") []) =
    [EvGetFlow; EvFlowParamsUpdate "access_type" "offline";
     EvFlowParamsUpdate "approval_prompt" "force";
     EvLoadClientConfigFile "secret.json"; EvLocalWebserverAuth;
     EvSaveCredentialsFile "/home/user/credentials.json";
     EvPrint "Credentials file saved to /home/user/credentials.json"].
Proof. reflexivity. Qed.

(** C9, amended: on success [get_credentials] ends by saving the bundle once
    and printing "Credentials file saved to " followed by the path; the path
    is [os.path.join(os.getcwd(), 'credentials.json')] when no (or an empty)
    output path is given, which for a working directory not ending in "/" is
    that directory followed by "/credentials.json", and the given path when a
    non-empty one is given. *)
Theorem get_credentials_output (E : env) (client_secret : string) (o : option string) :
  fst (get_credentials E client_secret o []) = Ok tt ->
  let path := if truthy o then str_of o
              else os_path_join (env_cwd E) "credentials.json" in
  (exists pre,
     snd (get_credentials E client_secret o []) =
       (pre ++ [EvSaveCredentialsFile path; EvPrint ("Credentials file saved to " ++ path)])%list /\
     forall q, ~ In (EvSaveCredentialsFile q) pre) /\
  (truthy o = false -> env_cwd E <> "" -> ends_with_slash (env_cwd E) = false ->
     path = env_cwd E ++ "/credentials.json") /\
  (forall p, o = Some p -> p <> "" -> path = p).
Proof.
  cbv beta delta [get_credentials GetFlow bind emit ret raise print].
  destruct (env_default_client_config_ok E); cbv beta iota; [| discriminate].
  destruct (env_client_config_ok E client_secret); cbv beta iota; [| discriminate].
  destruct (env_webserver_ok E); cbv beta iota; [| discriminate].
  intros _ path. split; [| split].
  - exists [EvGetFlow; EvFlowParamsUpdate "access_type" "offline";
            EvFlowParamsUpdate "approval_prompt" "force";
            EvLoadClientConfigFile client_secret; EvLocalWebserverAuth].
    split; [reflexivity |].
    intros q H. simpl in H. destruct H as [H|[H|[H|[H|[H|[]]]]]]; discriminate H.
  - intros Ho Hne Hs. unfold path. rewrite Ho. apply os_path_join_credentials; assumption.
  - intros p -> Hp. unfold path. unfold truthy. apply String.eqb_neq in Hp.
    rewrite Hp. reflexivity.
Qed.

Lemma get_credentials_output_witness :
  let path := if truthy None then str_of None
              else os_path_join (env_cwd sample_env) "credentials.json" in
  (exists pre,
     snd (get_credentials sample_env "secret.json" None []) =
       (pre ++ [EvSaveCredentialsFile path; EvPrint ("Credentials file saved to " ++ path)])%list /\
     forall q, ~ In (EvSaveCredentialsFile q) pre) /\
  (truthy None = false -> env_cwd sample_env <> "" ->
     ends_with_slash (env_cwd sample_env) = false ->
     path = env_cwd sample_env ++ "/credentials.json") /\
  (forall p, None = Some p -> p <> "" -> path = p).
Proof.
  apply (get_credentials_output sample_env "secret.json" None). reflexivity.
Defined.

(** ** Further properties of the scripts *)

(** [auth_with_service_account_key] reads the key once and never loads a
    credential bundle nor refreshes a token; with an invalid key it stops
    before [Authorize]; on success the session holds unexpired
    service-account credentials and its service is built. *)
Theorem auth_with_service_account_key_behaviour (E : env) (key : string) :
  count is_refresh (snd (auth_with_service_account_key E key [])) = 0 /\
  count is_auth_load (snd (auth_with_service_account_key E key [])) = 1 /\
  (forall q, ~ In (EvLoadCredentialsFile q) (snd (auth_with_service_account_key E key []))) /\
  (env_service_account_key_ok E key = false ->
     auth_with_service_account_key E key [] =
       (Raise ExnServiceAccountKey, [EvServiceAccountKey key])) /\
  (forall g, fst (auth_with_service_account_key E key []) = Ok g ->
     ready g /\ g_service g = true /\
     exists c, g_credentials g = Some c /\ cred_service_account c = true).
Proof.
  cbv beta delta [auth_with_service_account_key Authorize bind emit ret raise].
  destruct (env_service_account_key_ok E key); cbv beta iota;
    [destruct (env_authorize_ok E); cbv beta iota |];
    (split; [reflexivity | split; [reflexivity | split; [| split]]]);
    try (intros q H; simpl in H; repeat destruct H as [H|H]; try discriminate H;
         contradiction);
    try (intros H; discriminate H);
    try (intros _; reflexivity);
    intros g H; try discriminate H; injection H as <-.
  split; [eexists; split; reflexivity | split; [reflexivity |]].
  eexists. split; reflexivity.
Qed.

(** [get_credentials] starts with [GetFlow], which on a fresh [GoogleAuth]
    loads the default [client_secrets.json] of the working directory.
    Without it the run raises [InvalidConfigError] right after that call:
    the client secret named on the command line is never loaded, no browser
    flow starts and nothing is saved. With it, the flow gets
    [access_type=offline] and [approval_prompt=force], and the given client
    secret is loaded next. *)
Theorem get_credentials_flow_needs_default_client_secrets (E : env) (cs : string)
    (o : option string) :
  (env_default_client_config_ok E = false ->
     get_credentials E cs o [] = (Raise ExnClientConfig, [EvGetFlow])) /\
  (env_default_client_config_ok E = true ->
   exists rest,
     snd (get_credentials E cs o []) =
       ([EvGetFlow; EvFlowParamsUpdate "access_type" "offline";
         EvFlowParamsUpdate "approval_prompt" "force"; EvLoadClientConfigFile cs] ++ rest)%list).
Proof.
  cbv beta delta [get_credentials GetFlow bind emit ret raise print].
  destruct (env_default_client_config_ok E); cbv beta iota; split;
    try (intros H; discriminate H); intros _; [| reflexivity].
  destruct (env_client_config_ok E cs); cbv beta iota;
    [destruct (env_webserver_ok E); cbv beta iota |]; eexists; reflexivity.
Qed.

Lemma get_credentials_flow_needs_default_client_secrets_witness :
  get_credentials no_client_secrets_env "secret.json" None [] =
    (Raise ExnClientConfig, [EvGetFlow]).
Proof.
  apply (proj1 (get_credentials_flow_needs_default_client_secrets no_client_secrets_env
                  "secret.json" None)).
  reflexivity.
Defined.

(** [get_credentials] saves nothing unless the client secret loads and the
    consent flow succeeds; a client secret that fails to load raises before
    the browser flow is started. *)
Theorem get_credentials_saves_only_after_consent (E : env) (cs : string) (o : option string) :
  (forall q, In (EvSaveCredentialsFile q) (snd (get_credentials E cs o [])) ->
     env_client_config_ok E cs = true /\ env_webserver_ok E = true) /\
  (env_client_config_ok E cs = false ->
     fst (get_credentials E cs o []) = Raise ExnClientConfig /\
     ~ In EvLocalWebserverAuth (snd (get_credentials E cs o []))).
Proof.
  cbv beta delta [get_credentials GetFlow bind emit ret raise print].
  destruct (env_default_client_config_ok E); cbv beta iota;
    [destruct (env_client_config_ok E cs); cbv beta iota;
       [destruct (env_webserver_ok E); cbv beta iota |] |]; split;
    first
      [ solve [auto]
      | discriminate
      | intros q H; simpl in H; repeat destruct H as [H|H]; try discriminate H; contradiction
      | intros _; split; [reflexivity |]; intros H; simpl in H;
        repeat destruct H as [H|H]; try discriminate H; contradiction ].
Qed.

(** [main] lists at most one folder, and only the root: its listing calls
    are none or the single query "'root' in parents and trashed=false", and
    there is one only when no (non-empty) folder id and a (non-empty) folder
    name are given. *)
Theorem main_lists_root_at_most_once (E : env) (cli : upload_cli) :
  (filter is_list_call (snd (main E cli [])) = [] \/
   filter is_list_call (snd (main E cli [])) = [EvListFile (parents_query "root")]) /\
  (filter is_list_call (snd (main E cli [])) <> [] ->
   truthy (directory_id cli) = false /\ truthy (directory_name cli) = true).
Proof.
  rewrite main_run.
  destruct (negb (truthy (credentials cli)) && negb (truthy (service_account_key cli)));
    [simpl; split; [left; reflexivity | intros H; contradiction] |].
  pose proof (all_events_of_preserves _ _ (auth_select_events E cli)) as HA.
  assert (HA0 : forall d1, all_events no_file_op_or_list d1 -> filter is_list_call d1 = []).
  { intros d1. apply all_events_filter_nil.
    intros e. unfold no_file_op_or_list. destruct (is_list_call e); auto.
    rewrite orb_true_r. discriminate. }
  destruct (auth_select E cli []) as [[g|e|c] d1]; simpl in HA |- *;
    try (rewrite (HA0 _ HA); split; [left; reflexivity | intros H; contradiction]).
  pose proof (resolve_parent_list_calls E cli g) as HR.
  assert (HU : forall pid,
             filter is_list_call (snd (upload E g (file cli) pid (name cli) [])) = []).
  { intros pid. apply (all_events_filter_nil (fun e => negb (is_list_call e))).
    - intros ev H. now apply negb_true_iff.
    - apply all_events_of_preserves, upload_events.
      intros ev [H|[s' ->]]; [destruct ev; try discriminate H |]; reflexivity. }
  destruct (resolve_parent E cli g []) as [[pid|e|c] d2]; simpl in HR |- *;
    rewrite ?filter_app, (HA0 _ HA), ?HU, HR, ?app_nil_r; simpl;
    destruct (truthy (directory_id cli)), (truthy (directory_name cli));
    (split; [auto | intros H; try contradiction; auto]).
Qed.

(** With neither a (non-empty) folder id nor a folder name, every file
    [main] creates has no parent set. *)
Theorem main_without_folder_creates_without_parent (E : env) (cli : upload_cli) :
  truthy (directory_id cli) = false -> truthy (directory_name cli) = false ->
  forall ua, In (EvCreateFile ua) (snd (main E cli [])) -> ua_parents ua = None.
Proof.
  intros Hid Hn ua Hin.
  destruct (main_created_files E cli ua Hin) as (g & d1 & pid & d2 & _ & Hr & ->).
  unfold resolve_parent in Hr. rewrite Hid, Hn in Hr. injection Hr as <- _.
  reflexivity.
Qed.

Lemma main_without_folder_creates_without_parent_witness :
  ua_parents (make_upload_args (Some "") None) = None.
Proof.
  apply (main_without_folder_creates_without_parent sample_env
           (cli_of (Some "credentials.json") None "a.txt" None None None));
    [reflexivity | reflexivity | vm_compute; tauto].
Defined.

(** When a folder name is resolved to a non-empty id [i], every file [main]
    creates has [i] as its single parent. *)
Theorem main_resolved_name_is_parent (E : env) (cli : upload_cli) (drive : gauth)
    (i : string) :
  truthy (directory_id cli) = false -> truthy (directory_name cli) = true ->
  fst (get_folder_id_by_name E drive "root" (str_of (directory_name cli)) []) = Ok (Some i) ->
  i <> "" ->
  forall ua, In (EvCreateFile ua) (snd (main E cli [])) ->
    ua_parents ua = Some [mkFileLink "drive#fileLink" i].
Proof.
  intros Hid Hn Hres Hi ua Hin.
  destruct (main_created_files E cli ua Hin) as (g & d1 & pid & d2 & _ & Hr & ->).
  unfold resolve_parent in Hr. rewrite Hid, Hn in Hr. unfold bind in Hr.
  change (get_folder_id_by_name E g) with (get_folder_id_by_name E drive) in Hr.
  destruct (get_folder_id_by_name E drive "root" (str_of (directory_name cli)) [])
    as [o d] eqn:Hg.
  simpl in Hres. subst o.
  assert (Ht : truthy (Some i) = true) by (simpl; apply negb_true_iff, String.eqb_neq, Hi).
  rewrite Ht in Hr. simpl in Hr. injection Hr as <- _.
  apply make_upload_args_parents. auto.
Qed.

Lemma main_resolved_name_is_parent_witness :
  ua_parents (make_upload_args (Some "F123") None) =
    Some [mkFileLink "drive#fileLink" "F123"].
Proof.
  apply (main_resolved_name_is_parent sample_env
           (cli_of (Some "credentials.json") None "report.pdf" None (Some "Reports") None)
           GoogleAuth "F123"); try reflexivity; [discriminate | vm_compute; tauto].
Defined.

(** When the folder is chosen by name and the root listing raises an
    [HttpError] (the provider's "File not found" error included), [main]
    creates and uploads nothing and never reaches [exit(1)]: once the
    authorization succeeds, it raises the [ValueError] of
    [ast.literal_eval] right after the listing call. *)
Theorem main_listing_error_raises_value_error (E : env) (cli : upload_cli)
    (err : http_error) :
  truthy (directory_id cli) = false -> truthy (directory_name cli) = true ->
  env_list E (parents_query "root") = ListHttpError err ->
  all_events no_file_op (snd (main E cli [])) /\
  (forall c, fst (main E cli []) <> Exit c) /\
  (forall g, fst (auth_select E cli []) = Ok g ->
     main E cli [] =
       (Raise ExnValueError,
        (snd (auth_select E cli []) ++ [EvListFile (parents_query "root")])%list)).
Proof.
  intros Hid Hn Hl.
  assert (HR : forall g, resolve_parent E cli g [] =
                 (Raise ExnValueError, [EvListFile (parents_query "root")])).
  { intros g. unfold resolve_parent. rewrite Hid, Hn. unfold bind.
    rewrite (get_folder_id_by_name_listing_error E g "root" _ err Hl). reflexivity. }
  rewrite main_run.
  destruct (negb (truthy (credentials cli)) && negb (truthy (service_account_key cli)))
    eqn:Hp.
  { simpl. split; [reflexivity | split; [intros c; discriminate |]].
    intros g Hg. rewrite (auth_select_parse_ok E cli g Hg) in Hp. discriminate Hp. }
  pose proof (all_events_of_preserves _ _ (auth_select_events E cli)) as HA.
  assert (HA1 : all_events no_file_op (snd (auth_select E cli []))).
  { eapply all_events_weaken; [apply no_file_op_or_list_no_file_op | exact HA]. }
  pose proof (auth_select_no_exit E cli []) as HX.
  destruct (auth_select E cli []) as [[g|e|c] d1]; simpl in HA1, HX |- *.
  - rewrite HR. simpl. split; [apply all_events_app; [exact HA1 | reflexivity] |].
    split; [intros c; discriminate | intros g' _; reflexivity].
  - split; [exact HA1 | split; [intros c; discriminate | intros g' H; discriminate H]].
  - exfalso. exact (HX c eq_refl).
Qed.

Lemma main_listing_error_raises_value_error_witness :
  main missing_parent_env
    (cli_of (Some "credentials.json") None "a.txt" None (Some "Reports") None) [] =
  (Raise ExnValueError,
   (snd (auth_select missing_parent_env
          (cli_of (Some "credentials.json") None "a.txt" None (Some "Reports") None) []) ++
    [EvListFile (parents_query "root")])%list).
Proof.
  eapply (proj2 (proj2 (main_listing_error_raises_value_error missing_parent_env
           (cli_of (Some "credentials.json") None "a.txt" None (Some "Reports") None)
           (mkHttpError 404 (ErrBody "File not found: ")) eq_refl eq_refl eq_refl))).
  reflexivity.
Defined.


(** When [--credentials] names a bundle that fails to load or holds no
    credentials, [main] raises after the single load call: no token call,
    listing or upload follows. *)
Theorem main_bundle_load_failure (E : env) (cli : upload_cli) :
  truthy (credentials cli) = true ->
  env_load_credentials E (str_of (credentials cli)) = LoadFails \/
  env_load_credentials E (str_of (credentials cli)) = Loaded None ->
  exists e, main E cli [] = (Raise e, [EvLoadCredentialsFile (str_of (credentials cli))]).
Proof.
  intros Hc Hl. rewrite main_run, Hc. simpl.
  unfold auth_select. rewrite Hc.
  cbv beta delta [auth_with_credentials LoadCredentialsFile bind emit ret raise print].
  destruct Hl as [Hl|Hl]; rewrite Hl; cbv beta iota; eexists; reflexivity.
Qed.

Lemma main_bundle_load_failure_witness :
  exists e, main sample_env (cli_of (Some "empty.json") None "a.txt" None None None) [] =
    (Raise e, [EvLoadCredentialsFile "empty.json"]).
Proof.
  apply (main_bundle_load_failure sample_env
           (cli_of (Some "empty.json") None "a.txt" None None None));
    [reflexivity | right; reflexivity].
Defined.

(** [upload] succeeds exactly when the local file opens and the upload call
    succeeds; a missing local file raises after [CreateFile] and
    [SetContentFile], with no upload call. *)
Theorem upload_outcome (E : env) (drive : gauth) (f : string) (p n : option string) :
  (fst (upload E drive f p n []) = Ok tt <->
   env_file_exists E f = true /\ env_upload_ok E = true) /\
  (env_file_exists E f = false ->
   upload E drive f p n [] =
     (Raise (ExnIO f), [EvCreateFile (make_upload_args p n); EvSetContentFile f])).
Proof.
  cbv beta delta [upload bind emit ret raise print].
  destruct (env_file_exists E f); cbv beta iota;
    [destruct (env_upload_ok E); cbv beta iota |];
    (split; [split; [intros H; try discriminate H; auto
                    | intros [H1 H2]; try discriminate H1; try discriminate H2; reflexivity]
            | intros H; try discriminate H; reflexivity]).
Qed.

Lemma upload_outcome_witness :
  fst (upload sample_env GoogleAuth "a.txt" None None []) = Ok tt.
Proof.
  apply (proj1 (upload_outcome sample_env GoogleAuth "a.txt" None None)).
  split; reflexivity.
Defined.

(** A run of [main] that succeeds makes exactly one upload call, with
    [supportsTeamDrives=True], and it is the last call of the run. *)
Theorem main_success_ends_with_upload (E : env) (cli : upload_cli) :
  fst (main E cli []) = Ok tt ->
  count is_upload_call (snd (main E cli [])) = 1 /\
  exists pre, snd (main E cli []) = (pre ++ [EvUpload [("supportsTeamDrives", true)]])%list.
Proof.
  rewrite main_run.
  destruct (negb (truthy (credentials cli)) && negb (truthy (service_account_key cli)));
    [discriminate |].
  pose proof (all_events_of_preserves _ _ (auth_select_events E cli)) as HA.
  destruct (auth_select E cli []) as [[g|e|c] d1]; simpl in HA |- *;
    try discriminate.
  pose proof (resolve_parent_no_file_op E cli g) as HR.
  destruct (resolve_parent E cli g []) as [[pid|e|c] d2]; simpl in HR |- *;
    try discriminate.
  intros Hok. rewrite (upload_ok_trace E g (file cli) pid (name cli) Hok).
  split.
  - unfold count. rewrite !filter_app.
    rewrite (all_events_filter_nil _ _ _ no_file_op_or_list_not_upload HA),
            (all_events_filter_nil _ _ _ no_file_op_not_upload HR).
    reflexivity.
  - exists (d1 ++ d2 ++ [EvCreateFile (make_upload_args pid (name cli)); EvSetContentFile (file cli);
            EvPrint "Uploading file"])%list.
    now rewrite <- !app_assoc.
Qed.

Lemma main_success_ends_with_upload_witness :
  count is_upload_call
    (snd (main sample_env (cli_of None (Some "key.json") "a.txt" None None (Some "D1")) [])) = 1.
Proof.
  apply (main_success_ends_with_upload sample_env
           (cli_of None (Some "key.json") "a.txt" None None (Some "D1"))).
  reflexivity.
Defined.

Lemma auth_with_service_account_key_behaviour_witness :
  auth_with_service_account_key sample_env "bad.json" [] =
    (Raise ExnServiceAccountKey, [EvServiceAccountKey "bad.json"]).
Proof.
  apply (proj1 (proj2 (proj2 (proj2
           (auth_with_service_account_key_behaviour sample_env "bad.json"))))).
  reflexivity.
Defined.

Lemma get_credentials_saves_only_after_consent_witness :
  env_client_config_ok sample_env "secret.json" = true /\ env_webserver_ok sample_env = true.
Proof.
  apply (proj1 (get_credentials_saves_only_after_consent sample_env "secret.json"
                  (Some "out.json")) "out.json").
  simpl. tauto.
Defined.

Lemma main_lists_root_at_most_once_witness :
  truthy (directory_id (cli_of (Some "credentials.json") None "a.txt" None (Some "Reports") None))
    = false /\
  truthy (directory_name (cli_of (Some "credentials.json") None "a.txt" None (Some "Reports") None))
    = true.
Proof.
  apply (proj2 (main_lists_root_at_most_once sample_env
           (cli_of (Some "credentials.json") None "a.txt" None (Some "Reports") None))).
  vm_compute. discriminate.
Defined.
